(** * A shallow embedding of pkg/secrets/secrets_resource.go

    The resource [secretsResource] of the polygon-edge Terraform provider.
    The cryptographic and networking functions it calls (polygon-edge's
    [crypto] and [network] packages, libp2p's [peer]) and the conversion
    performed by the plugin framework's [State.Set] are external
    collaborators; they are gathered in the record [Collaborators] and stay
    opaque.  Each call to one of them is recorded in the trace of calls, so
    that the order of the steps of [Create] can be stated. *)

From Stdlib Require Import String List Bool.
From Stdlib Require Init.Byte.
From stdpp Require Import base gmap strings.
Import ListNotations.
Open Scope string_scope.

(** ** Plugin-framework values *)

(** [types.String]: null, unknown, or a known value. *)
Inductive TString :=
  | StringNull
  | StringUnknown
  | StringValue (s : string).

(** [diag.Severity] and [diag.Diagnostic]. *)
Inductive Severity := SeverityError | SeverityWarning.

Record Diagnostic := mkDiagnostic {
  diag_severity : Severity;
  diag_summary : string;
  diag_detail : string
}.

Definition Diagnostics := list Diagnostic.

Definition is_error (d : Diagnostic) : bool :=
  match diag_severity d with SeverityError => true | SeverityWarning => false end.

(** [Diagnostics.HasError]. *)
Definition HasError (ds : Diagnostics) : bool := existsb is_error ds.

#[global] Instance Severity_eq_dec : EqDecision Severity.
Proof. solve_decision. Defined.
#[global] Instance Diagnostic_eq_dec : EqDecision Diagnostic.
Proof. solve_decision. Defined.

(** [Diagnostics.Append(in...)]: each incoming diagnostic is added unless
    the collection already [Contains] an equal one (same severity, summary
    and detail); the check sees the diagnostics added earlier in the same
    call.  (The framework also skips [nil] diagnostics, which this type
    has none of.) *)
Fixpoint Append (ds more : Diagnostics) : Diagnostics :=
  match more with
  | [] => ds
  | d :: rest => Append (if decide (d ∈ ds) then ds else app ds [d]) rest
  end.

(** [Diagnostics.AddError(summary, detail)]:
    [diags.Append(NewErrorDiagnostic(summary, detail))]. *)
Definition AddError (ds : Diagnostics) (summary detail : string) : Diagnostics :=
  Append ds [mkDiagnostic SeverityError summary detail].

Arguments Append : simpl never.
Arguments AddError : simpl never.

(** [secretsDataSourceModel]. *)
Record secretsDataSourceModel := mkModel {
  ValidatorKeyEncoded : TString;
  ValidatorBLSKeyEncoded : TString;
  NetworkKeyEncoded : TString;
  Address : TString;
  BLSPubkey : TString;
  NodeID : TString
}.

(** Go's [string([]byte)] conversion. *)
Definition go_string (b : list Byte.byte) : string := string_of_list_byte b.

(** ** External collaborators *)

(** A Go call returning [(v, err)]: [Ok v] when [err == nil]. *)
Inductive result (E A : Type) :=
  | Ok (a : A)
  | Err (e : E).
Arguments Ok {E A} a.
Arguments Err {E A} e.

Record Collaborators := {
  error : Type;
  (** [err.Error()] *)
  Error : error -> string;
  ecdsaPrivateKey : Type;
  ecdsaPublicKey : Type;
  (** [privateKey.PublicKey] *)
  PublicKey : ecdsaPrivateKey -> ecdsaPublicKey;
  blsSecretKey : Type;
  libp2pPrivKey : Type;
  peerID : Type;
  address : Type;
  (** [crypto.GenerateAndEncodeECDSAPrivateKey()] *)
  GenerateAndEncodeECDSAPrivateKey : result error (ecdsaPrivateKey * list Byte.byte);
  (** [crypto.GenerateAndEncodeBLSSecretKey()] *)
  GenerateAndEncodeBLSSecretKey : result error (blsSecretKey * list Byte.byte);
  (** [crypto.BLSSecretKeyToPubkeyBytes(sk)] *)
  BLSSecretKeyToPubkeyBytes : blsSecretKey -> result error (list Byte.byte);
  (** [network.GenerateAndEncodeLibp2pKey()] *)
  GenerateAndEncodeLibp2pKey : result error (libp2pPrivKey * list Byte.byte);
  (** [peer.IDFromPrivateKey(k)] *)
  IDFromPrivateKey : libp2pPrivKey -> result error peerID;
  (** [crypto.PubKeyToAddress(&pub)] *)
  PubKeyToAddress : ecdsaPublicKey -> address;
  (** [types.Address.String()] *)
  AddressString : address -> string;
  (** [peer.ID.String()] *)
  PeerIDString : peerID -> string;
  (** The conversion done by [State.Set] of the plugin framework
      ([data.Set(ctx, val)]): the diagnostics it reports for a model. *)
  StateDataSet : secretsDataSourceModel -> Diagnostics
}.

(** The external calls of [Create], in the order of the source. *)
Inductive Step :=
  | StepGenerateECDSAKey
  | StepGenerateBLSKey
  | StepBLSPubkey
  | StepGenerateNetworkKey
  | StepNodeID
  | StepPubKeyToAddress.

(** A recorded call: the step and whether it returned an error
    (the error message, [err.Error()], when it did). *)
Record Event := mkEvent { ev_step : Step; ev_error : option string }.

(** ** The world a resource method runs in

    [resp_State] is the state carried by the response ([None]: a null
    state), [resp_Diagnostics] its diagnostics, [calls] the trace of
    external calls and [logs] the [tflog] output. *)
Record World := mkWorld {
  resp_State : option secretsDataSourceModel;
  resp_Diagnostics : Diagnostics;
  calls : list Event;
  logs : list string
}.

(** Go statements of a method body: they update the world and either
    continue with a value ([Some]) or have executed [return] ([None]). *)
Definition M (A : Type) := World -> World * option A.

Definition ret {A} (a : A) : M A := fun w => (w, Some a).

Definition bind {A B} (m : M A) (k : A -> M B) : M B :=
  fun w => match m w with
           | (w', Some a) => k a w'
           | (w', None) => (w', None)
           end.

Notation "x <- m ;; k" := (bind m (fun x => k))
  (at level 100, m at next level, right associativity).
Notation "m ;; k" := (bind m (fun _ => k))
  (at level 100, right associativity).

(** [return] from the method. *)
Definition go_return {A} : M A := fun w => (w, None).

Definition modify (f : World -> World) : M unit := fun w => (f w, Some tt).

Definition set_State (s : option secretsDataSourceModel) (w : World) : World :=
  mkWorld s (resp_Diagnostics w) (calls w) (logs w).
Definition set_Diagnostics (ds : Diagnostics) (w : World) : World :=
  mkWorld (resp_State w) ds (calls w) (logs w).
Definition record_call (e : Event) (w : World) : World :=
  mkWorld (resp_State w) (resp_Diagnostics w) (app (calls w) [e]) (logs w).

(** [tflog.Debug(ctx, msg)] *)
Definition tflog_Debug (msg : string) : M unit :=
  modify (fun w => mkWorld (resp_State w) (resp_Diagnostics w) (calls w) (app (logs w) [msg])).

(** [resp.Diagnostics.AddError(summary, detail)] *)
Definition add_error (summary detail : string) : M unit :=
  modify (fun w => set_Diagnostics (AddError (resp_Diagnostics w) summary detail) w).

(** [resp.Diagnostics.Append(diags...)] *)
Definition append_diags (ds : Diagnostics) : M unit :=
  modify (fun w => set_Diagnostics (Append (resp_Diagnostics w) ds) w).

(** [resp.Diagnostics.HasError()] *)
Definition has_error : M bool := fun w => (w, Some (HasError (resp_Diagnostics w))).

Section Resource.

Variable C : Collaborators.

(** A fallible external call: recorded, and its [(v, err)] handed back. *)
Definition call {A} (s : Step) (r : result (error C) A) : M (result (error C) A) :=
  modify (record_call (mkEvent s (match r with Ok _ => None | Err e => Some (Error C e) end)));;
  ret r.

(** An infallible external call. *)
Definition call_pure {A} (s : Step) (a : A) : M A :=
  modify (record_call (mkEvent s None));;
  ret a.

(** [if err != nil { resp.Diagnostics.AddError(summary, err.Error()); return }] *)
Definition check_err {A} (summary : string) (r : result (error C) A) : M A :=
  match r with
  | Ok a => ret a
  | Err e => add_error summary (Error C e);; go_return
  end.

(** [resp.State.Set(ctx, val)] of the plugin framework: the value is
    converted; on a conversion error the state is left as it was,
    otherwise it is replaced by the value; the diagnostics are returned. *)
Definition State_Set (val : secretsDataSourceModel) : M Diagnostics :=
  let diags := StateDataSet C val in
  if HasError diags then ret diags
  else modify (set_State (Some val));; ret diags.

(** [resource.CreateRequest] (unused by [Create]): the plan and config. *)
Record CreateRequest := mkCreateRequest {
  create_Plan : option secretsDataSourceModel;
  create_Config : option secretsDataSourceModel
}.

(** [secretsResource.Create] *)
Definition Create (_ : CreateRequest) : M unit :=
  (* Validator Key *)
  r1 <- call StepGenerateECDSAKey (GenerateAndEncodeECDSAPrivateKey C);;
  k1 <- check_err "Unable to generate ECDSA key" r1;;
  let '(validatorKey, validatorKeyEncoded) := k1 in
  (* Validator BLS key *)
  r2 <- call StepGenerateBLSKey (GenerateAndEncodeBLSSecretKey C);;
  k2 <- check_err "Unable to create generate BLS ket" r2;;
  let '(blsSecretKey, blsSecretKeyEncoded) := k2 in
  r3 <- call StepBLSPubkey (BLSSecretKeyToPubkeyBytes C blsSecretKey);;
  pubkeyBytes <- check_err "Unable to get BLS public key" r3;;
  (* Network key *)
  r4 <- call StepGenerateNetworkKey (GenerateAndEncodeLibp2pKey C);;
  k4 <- check_err "Unable to generate network key" r4;;
  let '(libp2pKey, libp2pKeyEncoded) := k4 in
  r5 <- call StepNodeID (IDFromPrivateKey C libp2pKey);;
  nodeID <- check_err "Unable to get nodeID" r5;;
  (* the composite literal: its fields are evaluated in source order *)
  addr <- call_pure StepPubKeyToAddress (PubKeyToAddress C (PublicKey C validatorKey));;
  diags <- State_Set {|
    ValidatorKeyEncoded := StringValue (go_string validatorKeyEncoded);
    Address := StringValue (AddressString C addr);
    ValidatorBLSKeyEncoded := StringValue (go_string blsSecretKeyEncoded);
    BLSPubkey := StringValue (go_string pubkeyBytes);
    NetworkKeyEncoded := StringValue (go_string libp2pKeyEncoded);
    NodeID := StringValue (PeerIDString C nodeID) |};;
  append_diags diags;;
  e <- has_error;;
  if e then go_return else ret tt.

End Resource.

(** The record [Create] hands to [State.Set], built from the values the
    collaborators returned, as in the composite literal of the source. *)
Definition created_model (C : Collaborators) (validatorKey : ecdsaPrivateKey C)
    (validatorKeyEncoded blsSecretKeyEncoded pubkeyBytes libp2pKeyEncoded : list Byte.byte)
    (nodeID : peerID C) : secretsDataSourceModel := {|
  ValidatorKeyEncoded := StringValue (go_string validatorKeyEncoded);
  Address := StringValue (AddressString C (PubKeyToAddress C (PublicKey C validatorKey)));
  ValidatorBLSKeyEncoded := StringValue (go_string blsSecretKeyEncoded);
  BLSPubkey := StringValue (go_string pubkeyBytes);
  NetworkKeyEncoded := StringValue (go_string libp2pKeyEncoded);
  NodeID := StringValue (PeerIDString C nodeID) |}.

(** The summaries [Create] gives to [AddError], per failing step. *)
Definition step_summary (s : Step) : string :=
  match s with
  | StepGenerateECDSAKey => "Unable to generate ECDSA key"
  | StepGenerateBLSKey => "Unable to create generate BLS ket"
  | StepBLSPubkey => "Unable to get BLS public key"
  | StepGenerateNetworkKey => "Unable to generate network key"
  | StepNodeID => "Unable to get nodeID"
  | StepPubKeyToAddress => ""
  end.

(** The steps of [Create] in source order. *)
Definition create_steps : list Step :=
  [StepGenerateECDSAKey; StepGenerateBLSKey; StepBLSPubkey;
   StepGenerateNetworkKey; StepNodeID; StepPubKeyToAddress].

(** The calls a method made, starting from world [w]. *)
Definition new_calls (w w' : World) : list Event := skipn (length (calls w)) (calls w').

Definition event_ok (e : Event) : Prop := ev_error e = None.

(** ** Read, Update, Delete *)

Record ReadRequest := mkReadRequest { read_State : option secretsDataSourceModel }.

Record UpdateRequest := mkUpdateRequest {
  update_Plan : option secretsDataSourceModel;
  update_Config : option secretsDataSourceModel;
  update_State : option secretsDataSourceModel
}.

Record DeleteRequest := mkDeleteRequest { delete_State : option secretsDataSourceModel }.

(** [secretsResource.Read]: the response already carries the state. *)
Definition Read (request : ReadRequest) : M unit :=
  (* NO-OP: all there is to read is in the State, and response is already populated with that. *)
  tflog_Debug "Reading secrets from state".

(** [secretsResource.Update] *)
Definition Update (request : UpdateRequest) : M unit :=
  (* NO-OP: since this resource cannot change *)
  ret tt.

(** [secretsResource.Delete] *)
Definition Delete (request : DeleteRequest) : M unit :=
  tflog_Debug "Removing secrets from state".

(** [n] successive reads, each request carrying the state then stored. *)
Fixpoint run_reads (n : nat) (w : World) : World :=
  match n with
  | O => w
  | S n' => run_reads n' (fst (Read (mkReadRequest (resp_State w)) w))
  end.

(** ** Metadata and Schema *)

Record MetadataRequest := mkMetadataRequest { ProviderTypeName : string }.

(** [secretsResource.Metadata]: [resp.TypeName]. *)
Definition Metadata (req : MetadataRequest) : string :=
  ProviderTypeName req ++ "_secrets".

Inductive AttributeKind := KindString | KindBool | KindInt64 | KindList.

(** [schema.Attribute]; the fields left out of a Go literal are false or empty. *)
Record Attribute := mkAttribute {
  attr_kind : AttributeKind;
  Required : bool;
  Optional : bool;
  Computed : bool;
  Sensitive : bool;
  Description : string
}.

(** [schema.StringAttribute{Computed: c, Sensitive: s, Description: d}] *)
Definition StringAttribute (computed sensitive : bool) (descr : string) : Attribute :=
  mkAttribute KindString false false computed sensitive descr.

Record Schema := mkSchema {
  Version : nat;
  Attributes : gmap string Attribute
}.

(** [secretsResource.Schema]: [resp.Schema]. *)
Definition secretsSchema : Schema := {|
  Version := 1;
  Attributes := list_to_map [
    ("validator_key_encoded", StringAttribute true true
       "Encoded validator key. Must be stored in a polygon-edge supported secrets manager.");
    ("validator_bls_key_encoded", StringAttribute true true
       "Encoded validator BLS key. Must be stored in a polygon-edge supported secrets manager.");
    ("network_key_encoded", StringAttribute true true
       "Encoded network key. Must be stored in a polygon-edge supported secrets manager.");
    ("address", StringAttribute true false "Validator address.");
    ("bls_pubkey", StringAttribute true false "Validator public key.");
    ("node_id", StringAttribute true false "Node ID.")]
|}.

(** The [tfsdk] tags of [secretsDataSourceModel], in field order. *)
Definition secretsDataSourceModel_tags : list string :=
  ["validator_key_encoded"; "validator_bls_key_encoded"; "network_key_encoded";
   "address"; "bls_pubkey"; "node_id"].

(** The field of the model a [tfsdk] tag selects, as the plugin framework's
    reflection resolves it ([None]: no field carries the tag). *)
Definition model_field (tag : string) (m : secretsDataSourceModel) : option TString :=
  if String.eqb tag "validator_key_encoded" then Some (ValidatorKeyEncoded m)
  else if String.eqb tag "validator_bls_key_encoded" then Some (ValidatorBLSKeyEncoded m)
  else if String.eqb tag "network_key_encoded" then Some (NetworkKeyEncoded m)
  else if String.eqb tag "address" then Some (Address m)
  else if String.eqb tag "bls_pubkey" then Some (BLSPubkey m)
  else if String.eqb tag "node_id" then Some (NodeID m)
  else None.

#[global] Instance Attribute_kind_eq_dec : EqDecision AttributeKind.
Proof. solve_decision. Defined.
#[global] Instance Attribute_eq_dec : EqDecision Attribute.
Proof. solve_decision. Defined.

(** ** A concrete set of collaborators

    Keys and identifiers are numbers, errors their messages; [fail s]
    makes step [s] return an error, [set_fail] makes [State.Set] report a
    conversion error. *)
Definition toy (fail : Step -> bool) (set_fail : bool) : Collaborators := {|
  error := string;
  Error := fun e => e;
  ecdsaPrivateKey := nat;
  ecdsaPublicKey := nat;
  PublicKey := fun k => k + 1;
  blsSecretKey := nat;
  libp2pPrivKey := nat;
  peerID := nat;
  address := nat;
  GenerateAndEncodeECDSAPrivateKey :=
    if fail StepGenerateECDSAKey then Err "entropy source unavailable"
    else Ok (7, list_byte_of_string "1f2e");
  GenerateAndEncodeBLSSecretKey :=
    if fail StepGenerateBLSKey then Err "bls keygen failed"
    else Ok (11, list_byte_of_string "3c4d");
  BLSSecretKeyToPubkeyBytes := fun sk =>
    if fail StepBLSPubkey then Err "bad secret key" else Ok (list_byte_of_string "pk");
  GenerateAndEncodeLibp2pKey :=
    if fail StepGenerateNetworkKey then Err "libp2p keygen failed"
    else Ok (13, list_byte_of_string "0801");
  IDFromPrivateKey := fun k =>
    if fail StepNodeID then Err "no public key" else Ok (k * 2);
  PubKeyToAddress := fun p => p * 3;
  AddressString := fun _ => "0x18";
  PeerIDString := fun _ => "16Uiu2HAm";
  StateDataSet := fun _ =>
    if set_fail then [mkDiagnostic SeverityError "Value Conversion Error" "mismatch"] else []
|}.

Definition no_fail : Step -> bool := fun _ => false.

Definition fail_at (s : Step) : Step -> bool :=
  fun s' => match s, s' with
            | StepGenerateECDSAKey, StepGenerateECDSAKey
            | StepGenerateBLSKey, StepGenerateBLSKey
            | StepBLSPubkey, StepBLSPubkey
            | StepGenerateNetworkKey, StepGenerateNetworkKey
            | StepNodeID, StepNodeID
            | StepPubKeyToAddress, StepPubKeyToAddress => true
            | _, _ => false
            end.

Definition empty_world : World := mkWorld None [] [] [].

Example create_toy_ok :
  fst (Create (toy no_fail false) (mkCreateRequest None None) empty_world) =
  mkWorld (Some (mkModel (StringValue "1f2e") (StringValue "3c4d") (StringValue "0801")
                         (StringValue "0x18") (StringValue "pk") (StringValue "16Uiu2HAm")))
          []
          (map (fun s => mkEvent s None) create_steps) [].
Proof. reflexivity. Qed.

Example create_toy_bls_fail :
  fst (Create (toy (fail_at StepBLSPubkey) false) (mkCreateRequest None None) empty_world) =
  mkWorld None [mkDiagnostic SeverityError "Unable to get BLS public key" "bad secret key"]
          [mkEvent StepGenerateECDSAKey None; mkEvent StepGenerateBLSKey None;
           mkEvent StepBLSPubkey (Some "bad secret key")] [].
Proof. reflexivity. Qed.

(** A response already holding the same error keeps a single copy. *)
Example create_toy_bls_fail_dedup :
  resp_Diagnostics (fst (Create (toy (fail_at StepBLSPubkey) false) (mkCreateRequest None None)
    (mkWorld None [mkDiagnostic SeverityError "Unable to get BLS public key" "bad secret key"] [] []))) =
  [mkDiagnostic SeverityError "Unable to get BLS public key" "bad secret key"].
Proof. reflexivity. Qed.

Example schema_size : map_size (Attributes secretsSchema) = 6.
Proof. vm_compute. reflexivity. Qed.

(** ** Proofs *)

Open Scope list_scope.

Lemma skipn_length_app {A} (l l' : list A) : skipn (length l) (l ++ l') = l'.
Proof. induction l; simpl; auto. Qed.

Lemma HasError_app (ds ds' : Diagnostics) :
  HasError (ds ++ ds') = HasError ds || HasError ds'.
Proof. unfold HasError. apply existsb_app. Qed.

Lemma HasError_elem (d : Diagnostic) (ds : Diagnostics) :
  d ∈ ds -> is_error d = true -> HasError ds = true.
Proof.
  intros Hin He. unfold HasError. apply existsb_exists.
  exists d. split; [apply list_elem_of_In; exact Hin | exact He].
Qed.

Lemma Append_nil (ds : Diagnostics) : Append ds [] = ds.
Proof. reflexivity. Qed.

Lemma Append_cons (ds : Diagnostics) (d : Diagnostic) (rest : Diagnostics) :
  Append ds (d :: rest) = Append (if decide (d ∈ ds) then ds else ds ++ [d]) rest.
Proof. reflexivity. Qed.

Lemma HasError_cons (d : Diagnostic) (ds : Diagnostics) :
  HasError (d :: ds) = is_error d || HasError ds.
Proof. reflexivity. Qed.

Lemma HasError_Append (ds more : Diagnostics) :
  HasError (Append ds more) = HasError ds || HasError more.
Proof.
  revert ds; induction more as [| d rest IH]; intros ds.
  - rewrite Append_nil. change (HasError []) with false. rewrite orb_false_r. reflexivity.
  - rewrite Append_cons, IH, HasError_cons. case_decide as Hin.
    + destruct (is_error d) eqn:He; [| reflexivity].
      rewrite (HasError_elem d ds Hin He). reflexivity.
    + rewrite HasError_app, HasError_cons. change (HasError []) with false.
      rewrite orb_false_r, orb_assoc. reflexivity.
Qed.

Lemma Append_prefix (ds more : Diagnostics) : exists d, Append ds more = ds ++ d.
Proof.
  revert ds; induction more as [| x rest IH]; intros ds.
  - exists []. rewrite Append_nil, app_nil_r. reflexivity.
  - rewrite Append_cons. case_decide.
    + apply IH.
    + destruct (IH (ds ++ [x])) as [d Hd]. exists ([x] ++ d).
      rewrite Hd, app_assoc. reflexivity.
Qed.

Lemma HasError_AddError (ds : Diagnostics) (s d : string) :
  HasError (AddError ds s d) = true.
Proof. unfold AddError. rewrite HasError_Append. simpl. apply orb_true_r. Qed.

Lemma go_string_nonempty (b : list Byte.byte) : b <> [] -> go_string b <> "".
Proof. destruct b; simpl; [congruence | discriminate]. Qed.

(** Runs [Create] symbolically: one goal per path through the method. *)
Ltac run_create :=
  unfold Create, call, call_pure, check_err, State_Set, append_diags, has_error,
    add_error, modify, go_return, ret, bind, record_call, set_Diagnostics, set_State,
    new_calls, created_model in *;
  repeat (case_match; simpl in *; simplify_eq);
  rewrite <- ?app_assoc, ?skipn_length_app in *; simpl in *;
  rewrite <- ?app_assoc, ?skipn_length_app; simpl.

(** C1: all-or-nothing commit.  The state [Create] leaves is either the
    state it started from or the record of all six fields built from the
    collaborators' values; and when some generation or derivation call
    returned an error, [Create] ends with an error diagnostic and the state
    it started from. *)
Theorem Create_all_or_nothing (C : Collaborators) (req : CreateRequest) (w : World) :
  (resp_State (fst (Create C req w)) = resp_State w \/
   exists vk vke bke pk nke id,
     resp_State (fst (Create C req w)) = Some (created_model C vk vke bke pk nke id)) /\
  ((exists e, In e (new_calls w (fst (Create C req w))) /\ ~ event_ok e) ->
   HasError (resp_Diagnostics (fst (Create C req w))) = true /\
   resp_State (fst (Create C req w)) = resp_State w).
Proof.
  run_create;
    (split;
     [ first [ left; reflexivity | right; do 6 eexists; reflexivity ]
     | intros [ev [Hin Hok]];
       first
         [ split; [apply HasError_AddError | reflexivity]
         | exfalso; repeat (destruct Hin as [Hin | Hin]; [subst ev; apply Hok; reflexivity |]);
           exact Hin ] ]).
Qed.

(** C2: on a successful [Create] the stored record is built from one
    result of each collaborator: [address] from the public key of the
    ECDSA key whose encoding is [validator_key_encoded], [bls_pubkey] from
    the BLS secret key whose encoding is [validator_bls_key_encoded], and
    [node_id] from the libp2p key whose encoding is [network_key_encoded];
    and, given that the collaborators return non-empty encodings, bytes and
    identifiers, all six fields are non-empty. *)
Theorem Create_success_consistent (C : Collaborators) (req : CreateRequest) (w : World)
  (HG1 : forall k b, GenerateAndEncodeECDSAPrivateKey C = Ok (k, b) -> b <> [])
  (HG2 : forall k b, GenerateAndEncodeBLSSecretKey C = Ok (k, b) -> b <> [])
  (HG3 : forall sk b, BLSSecretKeyToPubkeyBytes C sk = Ok b -> b <> [])
  (HG4 : forall k b, GenerateAndEncodeLibp2pKey C = Ok (k, b) -> b <> [])
  (HA : forall a, AddressString C a <> "")
  (HP : forall k id, IDFromPrivateKey C k = Ok id -> PeerIDString C id <> "")
  (Hsucc : HasError (resp_Diagnostics (fst (Create C req w))) = false) :
  exists vk vke bsk bke pk nk nke id,
    GenerateAndEncodeECDSAPrivateKey C = Ok (vk, vke) /\
    GenerateAndEncodeBLSSecretKey C = Ok (bsk, bke) /\
    BLSSecretKeyToPubkeyBytes C bsk = Ok pk /\
    GenerateAndEncodeLibp2pKey C = Ok (nk, nke) /\
    IDFromPrivateKey C nk = Ok id /\
    resp_State (fst (Create C req w)) = Some {|
      ValidatorKeyEncoded := StringValue (go_string vke);
      ValidatorBLSKeyEncoded := StringValue (go_string bke);
      NetworkKeyEncoded := StringValue (go_string nke);
      Address := StringValue (AddressString C (PubKeyToAddress C (PublicKey C vk)));
      BLSPubkey := StringValue (go_string pk);
      NodeID := StringValue (PeerIDString C id) |} /\
    go_string vke <> "" /\ go_string bke <> "" /\ go_string nke <> "" /\
    AddressString C (PubKeyToAddress C (PublicKey C vk)) <> "" /\
    go_string pk <> "" /\ PeerIDString C id <> "".
Proof.
  run_create; rewrite ?HasError_AddError, ?HasError_Append in *; simpl in *;
    rewrite ?orb_true_r in *; try congruence;
    try (match goal with
         | H : HasError ?x = true, H' : context [HasError ?x] |- _ => rewrite H in H'
         end; rewrite orb_true_r in *; congruence).
  all: do 8 eexists; repeat split; try eassumption; try reflexivity;
    try apply HA; try (eapply HP; eassumption);
    apply go_string_nonempty;
    first [ eapply HG1; reflexivity | eapply HG2; reflexivity
          | eapply HG3; eassumption | eapply HG4; reflexivity ].
Qed.

Ltac close_order :=
  (split; [lia |]); (split; [reflexivity |]); simpl;
  (split; [repeat constructor
          | intros Hn; first [exfalso; lia | eexists; split; [reflexivity | discriminate]]]).

(** C3: the calls [Create] makes are a prefix of the source order (ECDSA
    key, BLS key, BLS public key, network key, node ID, address); every
    call but the last returned without error, and when the prefix stops
    before the address derivation its last call returned an error. *)
Theorem Create_step_order (C : Collaborators) (req : CreateRequest) (w : World) :
  let tr := new_calls w (fst (Create C req w)) in
  exists n, 1 <= n <= 6 /\
    map ev_step tr = firstn n create_steps /\
    Forall event_ok (removelast tr) /\
    (n < 6 -> exists e, last tr = Some e /\ ~ event_ok e).
Proof.
  intros tr; subst tr.
  run_create; unfold event_ok;
    first [ exists 1; close_order | exists 2; close_order | exists 3; close_order
          | exists 4; close_order | exists 5; close_order | exists 6; close_order ].
Qed.

(** C4 (as amended): when a fallible step returns an error it is the last
    call [Create] makes and every earlier call succeeded; [Create] then
    adds, through [AddError], an error diagnostic whose summary is that
    step's own message and whose detail is the error text (skipped by
    [AddError] only when an equal diagnostic is already present), ends with
    an error and leaves the state as it was.  When all five fallible steps
    succeed, [Create] builds the record from exactly the values they
    returned, appends through [Append] what [State.Set] reports for it (so
    it ends with an error exactly when it began with one or [State.Set]
    reported one), and the state becomes that record unless [State.Set]
    reported an error.  The five messages are pairwise distinct. *)
Theorem Create_failure_diagnostics (C : Collaborators) (req : CreateRequest) (w : World) :
  ((exists s msg pre,
      new_calls w (fst (Create C req w)) = pre ++ [mkEvent s (Some msg)] /\
      Forall event_ok pre /\ s <> StepPubKeyToAddress /\
      resp_Diagnostics (fst (Create C req w)) =
        AddError (resp_Diagnostics w) (step_summary s) msg /\
      HasError (resp_Diagnostics (fst (Create C req w))) = true /\
      resp_State (fst (Create C req w)) = resp_State w)
   \/
   (Forall event_ok (new_calls w (fst (Create C req w))) /\
    length (new_calls w (fst (Create C req w))) = 6 /\
    exists vk vke bsk bke pk nk nke id,
      GenerateAndEncodeECDSAPrivateKey C = Ok (vk, vke) /\
      GenerateAndEncodeBLSSecretKey C = Ok (bsk, bke) /\
      BLSSecretKeyToPubkeyBytes C bsk = Ok pk /\
      GenerateAndEncodeLibp2pKey C = Ok (nk, nke) /\
      IDFromPrivateKey C nk = Ok id /\
      resp_Diagnostics (fst (Create C req w)) =
        Append (resp_Diagnostics w) (StateDataSet C (created_model C vk vke bke pk nke id)) /\
      HasError (resp_Diagnostics (fst (Create C req w))) =
        HasError (resp_Diagnostics w) ||
        HasError (StateDataSet C (created_model C vk vke bke pk nke id)) /\
      resp_State (fst (Create C req w)) =
        (if HasError (StateDataSet C (created_model C vk vke bke pk nke id))
         then resp_State w else Some (created_model C vk vke bke pk nke id)))) /\
  (forall s1 s2, s1 <> StepPubKeyToAddress -> s2 <> StepPubKeyToAddress ->
     step_summary s1 = step_summary s2 -> s1 = s2).
Proof.
  split.
  - run_create; unfold event_ok;
      first
        [ left;
          match goal with
          | |- exists _ _ _, ?tr = _ /\ _ => eexists _, _, (removelast tr)
          end;
          simpl; (split; [reflexivity |]); (split; [repeat constructor |]);
          (split; [discriminate |]); (split; [reflexivity |]);
          split; [apply HasError_AddError | reflexivity]
        | right; (split; [repeat constructor |]); (split; [reflexivity |]);
          do 8 eexists;
          (split; [reflexivity |]); (split; [reflexivity |]); (split; [eassumption |]);
          (split; [reflexivity |]); (split; [eassumption |]);
          (split; [reflexivity |]); (split; [apply HasError_Append |]);
          match goal with
          | H : HasError (StateDataSet _ _) = _ |- _ => rewrite H; reflexivity
          end ].
  - intros [] [] H1 H2 H; simpl in H; try reflexivity; try discriminate H; congruence.
Qed.

(** C4 counterexample: with every generation and derivation step
    succeeding, [Create] still ends with an error diagnostic when
    [State.Set] reports one. *)
Lemma Create_fails_after_all_steps_ok :
  Forall event_ok (calls (fst (Create (toy no_fail true) (mkCreateRequest None None) empty_world))) /\
  length (calls (fst (Create (toy no_fail true) (mkCreateRequest None None) empty_world))) = 6 /\
  HasError (resp_Diagnostics (fst (Create (toy no_fail true) (mkCreateRequest None None) empty_world))) = true.
Proof. vm_compute. split; [repeat constructor | split; reflexivity]. Qed.

(** C5: [Read] leaves the stored record, the diagnostics and the calls
    as they are: after any number of reads they are those before the
    first. *)
Theorem Read_repeat_no_change (n : nat) (w : World) :
  resp_State (run_reads n w) = resp_State w /\
  resp_Diagnostics (run_reads n w) = resp_Diagnostics w /\
  calls (run_reads n w) = calls w.
Proof.
  revert w; induction n as [| n IHn]; intros w; simpl; [auto |].
  apply (IHn (fst (Read (mkReadRequest (resp_State w)) w))).
Qed.

(** C6: [Update] changes nothing, whatever the request. *)
Theorem Update_no_op (req : UpdateRequest) (w : World) : Update req w = (w, Some tt).
Proof. reflexivity. Qed.

(** C7: [Read], [Update] and [Delete] add no diagnostic and return
    normally; the only effect of [Delete] is its debug log line
    acknowledging the removal of the state entry. *)
Theorem Read_Update_Delete_no_error (rreq : ReadRequest) (ureq : UpdateRequest)
    (dreq : DeleteRequest) (w : World) :
  resp_Diagnostics (fst (Read rreq w)) = resp_Diagnostics w /\ snd (Read rreq w) = Some tt /\
  resp_Diagnostics (fst (Update ureq w)) = resp_Diagnostics w /\ snd (Update ureq w) = Some tt /\
  Delete dreq w =
    (mkWorld (resp_State w) (resp_Diagnostics w) (calls w)
             (logs w ++ ["Removing secrets from state"]), Some tt).
Proof. repeat split. Qed.

(** C8 counterexample: three attributes of the schema, not two, are
    marked sensitive. *)
Lemma Schema_sensitive_not_two :
  map_size (filter (fun kv : string * Attribute => Sensitive kv.2 = true)
                   (Attributes secretsSchema)) <> 2.
Proof. vm_compute. discriminate. Qed.

(** C8 (as amended): the schema has six attributes, all computed string
    attributes, neither required nor optional; the sensitive ones are
    exactly the three encoded keys; the type name is the provider's
    followed by "_secrets". *)
Theorem Schema_attributes (p : string) :
  map_size (Attributes secretsSchema) = 6 /\
  map_Forall (fun _ a => attr_kind a = KindString /\ Computed a = true /\
                         Required a = false /\ Optional a = false)
             (Attributes secretsSchema) /\
  dom (filter (fun kv : string * Attribute => Sensitive kv.2 = true) (Attributes secretsSchema)) =
    ({["validator_key_encoded"; "validator_bls_key_encoded"; "network_key_encoded"]}
     : gset string) /\
  Metadata (mkMetadataRequest p) = (p ++ "_secrets")%string.
Proof.
  split; [vm_compute; reflexivity |].
  split; [apply (bool_decide_unpack _); vm_compute; reflexivity |].
  split; [apply (bool_decide_unpack _); vm_compute; reflexivity | reflexivity].
Qed.

(** C9: [Create] does not read its request. *)
Theorem Create_ignores_request (C : Collaborators) (r1 r2 : CreateRequest) (w : World) :
  Create C r1 w = Create C r2 w.
Proof. reflexivity. Qed.

(** C10: when the five fallible steps succeed but [State.Set] reports an
    error for the built record, [Create] appends those diagnostics, ends
    with an error, returns early and leaves the state as it was. *)
Theorem Create_state_set_failure (C : Collaborators) (req : CreateRequest) (w : World)
  vk vke bsk bke pk nk nke id
  (H1 : GenerateAndEncodeECDSAPrivateKey C = Ok (vk, vke))
  (H2 : GenerateAndEncodeBLSSecretKey C = Ok (bsk, bke))
  (H3 : BLSSecretKeyToPubkeyBytes C bsk = Ok pk)
  (H4 : GenerateAndEncodeLibp2pKey C = Ok (nk, nke))
  (H5 : IDFromPrivateKey C nk = Ok id)
  (Hset : HasError (StateDataSet C (created_model C vk vke bke pk nke id)) = true) :
  resp_Diagnostics (fst (Create C req w)) =
    Append (resp_Diagnostics w) (StateDataSet C (created_model C vk vke bke pk nke id)) /\
  HasError (resp_Diagnostics (fst (Create C req w))) = true /\
  resp_State (fst (Create C req w)) = resp_State w /\
  snd (Create C req w) = None.
Proof.
  unfold Create, call, call_pure, check_err, State_Set, append_diags, has_error,
    modify, go_return, ret, bind, record_call, set_Diagnostics, set_State.
  rewrite H1, H2, H3, H4, H5. unfold created_model in Hset. simpl.
  rewrite Hset. simpl. rewrite HasError_Append, Hset, orb_true_r.
  repeat split; simpl; rewrite ?HasError_Append, ?Hset, ?orb_true_r; reflexivity.
Qed.

(** Witness for C2: the collaborators [toy no_fail false] meet its
    hypotheses and [Create] succeeds on them. *)
Lemma Create_success_consistent_witness :
  HasError (resp_Diagnostics (fst (Create (toy no_fail false) (mkCreateRequest None None) empty_world)))
    = false /\
  exists vk vke bsk bke pk nk nke id,
    GenerateAndEncodeECDSAPrivateKey (toy no_fail false) = Ok (vk, vke) /\
    GenerateAndEncodeBLSSecretKey (toy no_fail false) = Ok (bsk, bke) /\
    BLSSecretKeyToPubkeyBytes (toy no_fail false) bsk = Ok pk /\
    GenerateAndEncodeLibp2pKey (toy no_fail false) = Ok (nk, nke) /\
    IDFromPrivateKey (toy no_fail false) nk = Ok id /\
    resp_State (fst (Create (toy no_fail false) (mkCreateRequest None None) empty_world)) = Some {|
      ValidatorKeyEncoded := StringValue (go_string vke);
      ValidatorBLSKeyEncoded := StringValue (go_string bke);
      NetworkKeyEncoded := StringValue (go_string nke);
      Address := StringValue (AddressString (toy no_fail false)
                   (PubKeyToAddress (toy no_fail false) (PublicKey (toy no_fail false) vk)));
      BLSPubkey := StringValue (go_string pk);
      NodeID := StringValue (PeerIDString (toy no_fail false) id) |} /\
    go_string vke <> "" /\ go_string bke <> "" /\ go_string nke <> "" /\
    AddressString (toy no_fail false)
      (PubKeyToAddress (toy no_fail false) (PublicKey (toy no_fail false) vk)) <> "" /\
    go_string pk <> "" /\ PeerIDString (toy no_fail false) id <> "".
Proof.
  split; [reflexivity |].
  apply (Create_success_consistent (toy no_fail false) (mkCreateRequest None None) empty_world);
    simpl; intros;
    try (match goal with H : Ok _ = Ok _ |- _ => injection H; intros; subst end);
    try discriminate; reflexivity.
Defined.

(** Witness for C10: with [toy no_fail true] all five steps succeed and
    [State.Set] reports a conversion error. *)
Lemma Create_state_set_failure_witness :
  resp_Diagnostics (fst (Create (toy no_fail true) (mkCreateRequest None None) empty_world)) =
    Append [] (StateDataSet (toy no_fail true)
      (created_model (toy no_fail true) 7 (list_byte_of_string "1f2e") (list_byte_of_string "3c4d")
         (list_byte_of_string "pk") (list_byte_of_string "0801") 26)) /\
  HasError (resp_Diagnostics (fst (Create (toy no_fail true) (mkCreateRequest None None) empty_world)))
    = true /\
  resp_State (fst (Create (toy no_fail true) (mkCreateRequest None None) empty_world)) = None /\
  snd (Create (toy no_fail true) (mkCreateRequest None None) empty_world) = None.
Proof.
  apply (Create_state_set_failure (toy no_fail true) (mkCreateRequest None None) empty_world
           7 (list_byte_of_string "1f2e") 11 (list_byte_of_string "3c4d")
           (list_byte_of_string "pk") 13 (list_byte_of_string "0801") 26);
    reflexivity.
Defined.

(** ** Further properties of the resource *)

Lemma model_field_is_Some (k : string) (m : secretsDataSourceModel) :
  is_Some (model_field k m) <-> k ∈ secretsDataSourceModel_tags.
Proof.
  unfold model_field, secretsDataSourceModel_tags.
  rewrite !elem_of_cons, elem_of_nil.
  repeat match goal with
         | |- context [String.eqb k ?t] => destruct (String.eqb_spec k t) as [-> | ?]
         end; simpl;
    (split; [intros [? H]; try discriminate; tauto | intros H; try (eexists; reflexivity)]);
    intuition congruence.
Qed.

Lemma secretsSchema_dom :
  dom (Attributes secretsSchema) = (list_to_set secretsDataSourceModel_tags : gset string).
Proof. apply (bool_decide_unpack _). vm_compute. reflexivity. Qed.

Lemma secretsSchema_lookup_tag (k : string) :
  is_Some (Attributes secretsSchema !! k) <-> k ∈ secretsDataSourceModel_tags.
Proof.
  rewrite <- elem_of_dom, secretsSchema_dom, elem_of_list_to_set. reflexivity.
Qed.

(** The schema's attribute names are exactly the [tfsdk] tags of the
    model [Create] hands to [State.Set]: every attribute is backed by a
    field and every field by an attribute. *)
Theorem schema_matches_model_tags (m : secretsDataSourceModel) (k : string) :
  is_Some (Attributes secretsSchema !! k) <-> is_Some (model_field k m).
Proof. rewrite secretsSchema_lookup_tag, model_field_is_Some. reflexivity. Qed.

(** After a successful [Create] every attribute of the schema, read
    through the model's [tfsdk] tags, holds a known string value: none is
    left null or unknown. *)
Theorem Create_success_all_attributes_known (C : Collaborators) (req : CreateRequest)
    (w : World)
  (Hsucc : HasError (resp_Diagnostics (fst (Create C req w))) = false) :
  exists m, resp_State (fst (Create C req w)) = Some m /\
    forall k a, Attributes secretsSchema !! k = Some a ->
      exists s, model_field k m = Some (StringValue s).
Proof.
  run_create; rewrite ?HasError_AddError, ?HasError_Append in *; simpl in *;
    rewrite ?orb_true_r in *; try congruence;
    try (match goal with
         | H : HasError ?x = true, H' : context [HasError ?x] |- _ => rewrite H in H'
         end; rewrite orb_true_r in *; congruence).
  all: eexists; split; [reflexivity |];
    intros k a Hk;
    assert (Hin : k ∈ secretsDataSourceModel_tags)
      by (apply secretsSchema_lookup_tag; eexists; exact Hk);
    unfold secretsDataSourceModel_tags in Hin;
    rewrite !elem_of_cons, elem_of_nil in Hin;
    repeat destruct Hin as [-> | Hin]; try contradiction; eexists; reflexivity.
Qed.

(** [Create] keeps the diagnostics it is given as a prefix (it only
    appends) and writes no log line. *)
Theorem Create_appends_diagnostics_no_log (C : Collaborators) (req : CreateRequest)
    (w : World) :
  (exists d, resp_Diagnostics (fst (Create C req w)) = resp_Diagnostics w ++ d) /\
  logs (fst (Create C req w)) = logs w.
Proof.
  run_create;
    (split; [first [apply Append_prefix | unfold AddError; apply Append_prefix] | reflexivity]).
Qed.

(** [Create] does not read the prior state: started from two worlds that
    differ only in their state, it makes the same calls, reports the same
    diagnostics and returns the same way; each run either leaves its own
    prior state or both end with the same record. *)
Theorem Create_independent_of_prior_state (C : Collaborators) (req : CreateRequest)
    (w : World) (s : option secretsDataSourceModel) :
  snd (Create C req (set_State s w)) = snd (Create C req w) /\
  resp_Diagnostics (fst (Create C req (set_State s w))) = resp_Diagnostics (fst (Create C req w)) /\
  calls (fst (Create C req (set_State s w))) = calls (fst (Create C req w)) /\
  logs (fst (Create C req (set_State s w))) = logs (fst (Create C req w)) /\
  ((resp_State (fst (Create C req (set_State s w))) = s /\
    resp_State (fst (Create C req w)) = resp_State w) \/
   resp_State (fst (Create C req (set_State s w))) = resp_State (fst (Create C req w))).
Proof.
  run_create;
    repeat (split; [reflexivity |]);
    first [left; split; reflexivity | right; reflexivity].
Qed.

(** [n] successive reads add exactly [n] debug lines "Reading secrets from
    state" to the log and change nothing else. *)
Theorem run_reads_only_log (n : nat) (w : World) :
  run_reads n w =
    mkWorld (resp_State w) (resp_Diagnostics w) (calls w)
            (logs w ++ repeat "Reading secrets from state" n).
Proof.
  revert w; induction n as [| n IHn]; intros w; simpl.
  - rewrite app_nil_r. destruct w; reflexivity.
  - rewrite IHn. simpl. rewrite <- app_assoc. reflexivity.
Qed.

(** Witness for [Create_success_all_attributes_known]: [Create] succeeds
    with the collaborators [toy no_fail false]. *)
Lemma Create_success_all_attributes_known_witness :
  HasError (resp_Diagnostics (fst (Create (toy no_fail false) (mkCreateRequest None None) empty_world)))
    = false /\
  exists m, resp_State (fst (Create (toy no_fail false) (mkCreateRequest None None) empty_world)) = Some m /\
    forall k a, Attributes secretsSchema !! k = Some a ->
      exists s, model_field k m = Some (StringValue s).
Proof.
  split; [reflexivity |].
  apply (Create_success_all_attributes_known (toy no_fail false) (mkCreateRequest None None)
           empty_world).
  reflexivity.
Defined.
